(** * Meta-review system: score, rank and weight-factor recomputation

    A shallow embedding of [meta_review/data.py] (class [MetaReviewHandler]).

    Conventions of the embedding:
    - Python floats (scores, weight factors, punishment) are idealised as
      exact rationals [Q]; float equality [==]/[!=] becomes [Qeq].
    - instants ([datetime]) are integers [Z] (any totally ordered time line);
      a nullable instant is an [option].
    - a Python [dict] is an insertion-ordered association list ([Dict]):
      assigning to an existing key keeps its position, a new key is appended.
    - an exception is an [Err] result; stages are sequenced in the error
      monad, so the first exception ends the run as in Python.
    - the ORM is an explicit [Database] of three tables; a foreign key is the
      primary key of the row it points to (a login or an id), and a related
      manager ([participant.receive.all()]) is a selection over the table. *)

From Stdlib Require Import ZArith QArith Qminmax List String Ascii Bool Lia Lqa.
From Stdlib Require Import Sorted Permutation.
Import ListNotations.

Open Scope string_scope.
Open Scope Z_scope.
Open Scope Q_scope.

(* ================================================================== *)
(** ** Exceptions and the error monad *)

Inductive error : Type :=
| KeyError (key : string)        (* [d[key]] on a dict without [key] *)
| AttributeError                 (* attribute access on [None] *)
| TypeError                      (* ordering [None] against an instant *)
| DoesNotExist (key : string).   (* a foreign key without its row *)

Inductive result (A : Type) : Type :=
| Ok (a : A)
| Err (e : error).
Arguments Ok {A} a.
Arguments Err {A} e.

Definition bind {A B : Type} (m : result A) (k : A -> result B) : result B :=
  match m with
  | Ok a => k a
  | Err e => Err e
  end.

Notation "x <- m ;; k" := (bind m (fun x => k))
  (at level 61, m at next level, right associativity).
Notation "' pat <- m ;; k" := (bind m (fun x => match x with pat => k end))
  (at level 61, pat pattern, m at next level, right associativity).

(** A [for] loop whose body may raise: the first exception stops it. *)
Fixpoint foldM {A S : Type} (body : S -> A -> result S) (l : list A) (s : S)
  : result S :=
  match l with
  | [] => Ok s
  | a :: l' => s' <- body s a ;; foldM body l' s'
  end.

Definition is_ok {A : Type} (m : result A) : bool :=
  match m with Ok _ => true | Err _ => false end.

(* ================================================================== *)
(** ** Python dictionaries *)

Section Dict.
Context {V : Type}.

Definition Dict' : Type := list (string * V).

Fixpoint dget (k : string) (d : Dict') : option V :=
  match d with
  | [] => None
  | (k', v) :: d' => if String.eqb k k' then Some v else dget k d'
  end.

(** [d[k] = v] *)
Fixpoint dset (k : string) (v : V) (d : Dict') : Dict' :=
  match d with
  | [] => [(k, v)]
  | (k', v') :: d' =>
      if String.eqb k k' then (k, v) :: d' else (k', v') :: dset k v d'
  end.

(** [d[k]] as an expression: raises [KeyError] when [k] is absent. *)
Definition dindex (k : string) (d : Dict') : result V :=
  match dget k d with
  | Some v => Ok v
  | None => Err (KeyError k)
  end.

Definition has_key (k : string) (d : Dict') : bool :=
  match dget k d with Some _ => true | None => false end.

Definition keys (d : Dict') : list string := map fst d.
Definition values (d : Dict') : list V := map snd d.
End Dict.

Definition Dict (V : Type) : Type := @Dict' V.

(** Truthiness of a string ([if login:]): empty (or absent) is false. *)
Definition truthy (s : string) : bool :=
  match s with EmptyString => false | String _ _ => true end.

(** [s.find(sub) != -1] *)
Fixpoint contains (sub s : string) : bool :=
  String.prefix sub s ||
  match s with
  | EmptyString => false
  | String _ s' => contains sub s'
  end.

(* ================================================================== *)
(** ** The feed (parsed JSON) *)

Definition time : Type := Z.
Bind Scope Z_scope with time.

(** [parse_time]: [None] stays [None], a time string becomes an instant.
    Time strings are taken as already read into instants. *)
Definition parse_time (t : option time) : option time :=
  match t with
  | None => None
  | Some i => Some i
  end.

Record RawUser : Type := mkRawUser {
  u_login : string;      (* empty when the account was deleted *)
  u_name : string }.

Record RawReaction : Type := mkRawReaction {
  rr_id : string;
  rr_createdAt : time;
  rr_content : string;
  rr_user : RawUser }.

Record RawComment : Type := mkRawComment {
  rc_id : string;
  rc_createdAt : time;
  rc_lastEditedAt : option time;
  rc_bodyText : string;
  rc_diffHunk : string;
  rc_author : RawUser;
  rc_reactions : list RawReaction }.   (* empty when the key is missing *)

(** One entry of the feed's [issues] list: [issue['issue']['pullRequest']],
    when there is one, reduced to its comments. *)
Record Issue : Type := mkIssue {
  pullRequest : option (list RawComment) }.

(** A reaction once [__init__] has stamped its receiver and comment id. *)
Record StampedReaction : Type := mkStamped {
  sr_raw : RawReaction;
  sr_receiver : string;
  sr_comment_id : string }.

(* ================================================================== *)
(** ** The persisted entities *)

(** Modelled from the spec: the three model classes of [meta_review/models.py]
    (the file is not among the sources); fields as the spec's data model and
    the handler's attribute accesses give them. *)
Record Participant : Type := mkParticipant {
  login : string;
  name : string;
  score : Q;
  rank : option Z;
  trend : option Z;
  weight_factor : Q;
  pos_in : Z;
  weighted_pos_in : Q;
  pos_out : Z;
  neg_in : Z;
  weighted_neg_in : Q;
  neg_out : Z;
  last_active_at : option time;
  punishment : Q }.

Record Comment : Type := mkComment {
  c_id : string;
  c_body : string;
  c_diff : string;
  c_created_at : option time;     (* null on a row just bulk-created *)
  c_last_edited_at : option time;
  c_author : option string;        (* login of the author row, nullable *)
  c_score : Q;
  c_pos : Z;
  c_weighted_pos : Q;
  c_neg : Z;
  c_weighted_neg : Q }.

Record Reaction : Type := mkReaction {
  r_id : string;
  r_created_at : time;
  r_content : string;
  r_giver : option string;         (* login, nullable *)
  r_receiver : option string;      (* login, nullable *)
  r_review : option string }.      (* comment id *)

Record Database : Type := mkDatabase {
  tbl_participants : Dict Participant;
  tbl_comments : Dict Comment;
  tbl_reactions : Dict Reaction }.

Definition empty_db : Database := mkDatabase [] [] [].

(** Modelled from the spec: the field defaults of a freshly created
    Participant row ([meta_review/models.py] is not among the sources).  Rank,
    trend and checkpoint start unset (the spec's data model calls them
    nullable until first computed), counters and punishment start at zero;
    the defaults of the score and of the weight factor are left open. *)
Record Defaults : Type := mkDefaults {
  default_score : Q;
  default_weight_factor : Q }.

Definition new_participant (dflt : Defaults) (l : string) : Participant :=
  mkParticipant l "" (default_score dflt) None None
                (default_weight_factor dflt) 0 0 0 0 0 0 None 0.

(** Attribute assignments. *)
Definition set_name (p : Participant) (n : string) : Participant :=
  mkParticipant (login p) n (score p) (rank p) (trend p) (weight_factor p)
    (pos_in p) (weighted_pos_in p) (pos_out p) (neg_in p) (weighted_neg_in p)
    (neg_out p) (last_active_at p) (punishment p).

Definition set_score (p : Participant) (s : Q) : Participant :=
  mkParticipant (login p) (name p) s (rank p) (trend p) (weight_factor p)
    (pos_in p) (weighted_pos_in p) (pos_out p) (neg_in p) (weighted_neg_in p)
    (neg_out p) (last_active_at p) (punishment p).

Definition set_rank (p : Participant) (r : option Z) : Participant :=
  mkParticipant (login p) (name p) (score p) r (trend p) (weight_factor p)
    (pos_in p) (weighted_pos_in p) (pos_out p) (neg_in p) (weighted_neg_in p)
    (neg_out p) (last_active_at p) (punishment p).

Definition set_trend (p : Participant) (t : option Z) : Participant :=
  mkParticipant (login p) (name p) (score p) (rank p) t (weight_factor p)
    (pos_in p) (weighted_pos_in p) (pos_out p) (neg_in p) (weighted_neg_in p)
    (neg_out p) (last_active_at p) (punishment p).

Definition set_weight_factor (p : Participant) (w : Q) : Participant :=
  mkParticipant (login p) (name p) (score p) (rank p) (trend p) w
    (pos_in p) (weighted_pos_in p) (pos_out p) (neg_in p) (weighted_neg_in p)
    (neg_out p) (last_active_at p) (punishment p).

Definition set_last_active_at (p : Participant) (t : option time)
  : Participant :=
  mkParticipant (login p) (name p) (score p) (rank p) (trend p)
    (weight_factor p) (pos_in p) (weighted_pos_in p) (pos_out p) (neg_in p)
    (weighted_neg_in p) (neg_out p) t (punishment p).

Definition set_punishment (p : Participant) (q : Q) : Participant :=
  mkParticipant (login p) (name p) (score p) (rank p) (trend p)
    (weight_factor p) (pos_in p) (weighted_pos_in p) (pos_out p) (neg_in p)
    (weighted_neg_in p) (neg_out p) (last_active_at p) q.

(** The six counters, bumped together at the end of a participant's turn. *)
Definition add_counters (p : Participant)
    (dpos_in : Z) (dwpos_in : Q) (dpos_out : Z)
    (dneg_in : Z) (dwneg_in : Q) (dneg_out : Z) : Participant :=
  mkParticipant (login p) (name p) (score p) (rank p) (trend p)
    (weight_factor p)
    (pos_in p + dpos_in)%Z (weighted_pos_in p + dwpos_in)
    (pos_out p + dpos_out)%Z
    (neg_in p + dneg_in)%Z (weighted_neg_in p + dwneg_in)
    (neg_out p + dneg_out)%Z
    (last_active_at p) (punishment p).

Definition set_tbl_participants (db : Database) (t : Dict Participant)
  : Database :=
  mkDatabase t (tbl_comments db) (tbl_reactions db).

Definition set_tbl_comments (db : Database) (t : Dict Comment) : Database :=
  mkDatabase (tbl_participants db) t (tbl_reactions db).

Definition set_tbl_reactions (db : Database) (t : Dict Reaction) : Database :=
  mkDatabase (tbl_participants db) (tbl_comments db) t.

(** Modelled from the spec: [Comment(id=...)], a row with nothing but its
    key; no author, no instants, zero score and counts. *)
Definition new_comment (id : string) : Comment :=
  mkComment id "" "" None None None 0 0 0 0 0.

(* ================================================================== *)
(** ** Normalizer: [MetaReviewHandler.__init__] *)

Record Snapshot : Type := mkSnapshot {
  raw_comments : Dict RawComment;
  raw_reactions : Dict StampedReaction;
  raw_participants : Dict RawUser }.

Definition init_comments (content : list Issue) : Dict RawComment :=
  fold_left
    (fun comments issue =>
       match pullRequest issue with
       | None => comments
       | Some cs =>
           fold_left (fun comments comment => dset (rc_id comment) comment comments)
                     cs comments
       end)
    content [].

Definition init_reactions (comments : Dict RawComment) : Dict StampedReaction :=
  fold_left
    (fun reactions kc =>
       let comment := snd kc in
       match rc_reactions comment with
       | [] => reactions
       | rs =>
           fold_left
             (fun reactions reaction =>
                dset (rr_id reaction)
                     (mkStamped reaction (u_login (rc_author comment))
                                (rc_id comment))
                     reactions)
             rs reactions
       end)
    comments [].

(** The third loop of [__init__].  The guard on a reaction's user tests
    [author['login']], as the source does. *)
Definition register_users (author : RawUser) (rs : list RawReaction)
    (participants : Dict RawUser) : Dict RawUser :=
  fold_left
    (fun participants reaction =>
       let user := rr_user reaction in
       if truthy (u_login author)
       then dset (u_login user) user participants
       else participants)
    rs participants.

Definition register_comment (participants : Dict RawUser)
    (kc : string * RawComment) : Dict RawUser :=
  let comment := snd kc in
  let author := rc_author comment in
  let participants :=
    if truthy (u_login author)
    then dset (u_login author) author participants
    else participants in
  match rc_reactions comment with
  | [] => participants
  | rs => register_users author rs participants
  end.

Definition init_participants (comments : Dict RawComment) : Dict RawUser :=
  fold_left register_comment comments [].

Definition init (content : list Issue) : Snapshot :=
  let comments := init_comments content in
  mkSnapshot comments (init_reactions comments) (init_participants comments).

(* ================================================================== *)
(** ** Punishment rule: [__check_comment_update] *)

(** The loop over [comment.reaction_set.all()] that raises the flag. *)
Definition need_punishment (last_edited_at : option time)
    (reactions : list Reaction) : bool :=
  fold_left
    (fun flag reaction =>
       match last_edited_at with
       | Some t => if (r_created_at reaction <? t)%Z then true else flag
       | None => flag
       end)
    reactions false.

Definition punish (author : Participant) : Participant :=
  let author := set_punishment author (punishment author + (1 # 2)) in
  set_score author (score author - (1 # 2)).

(** [author] is [comment.author], [None] when the comment has none; the
    result is that object after the call. *)
Definition check_comment_update (last_edited_at : option time)
    (author : option Participant) (reactions : list Reaction)
  : result (option Participant) :=
  if need_punishment last_edited_at reactions then
    match author with
    | None => Err AttributeError
    | Some a => Ok (Some (punish a))
    end
  else Ok author.

(* ================================================================== *)
(** ** Loader *)

(** [Participant.objects.get_or_create(login=...)] *)
Definition get_or_create_participant (dflt : Defaults) (l : string)
    (db : Database) : Participant * Database :=
  match dget l (tbl_participants db) with
  | Some p => (p, db)
  | None =>
      let p := new_participant dflt l in
      (p, set_tbl_participants db (dset l p (tbl_participants db)))
  end.

Definition load_participants_to_memory (dflt : Defaults)
    (raw : Dict RawUser) (db : Database) : Dict Participant * Database :=
  let '(mem, db) :=
    fold_left
      (fun (st : Dict Participant * Database) kp =>
         let '(mem, db) := st in
         let '(key, participant) := kp in
         let '(p, db) := get_or_create_participant dflt (u_login participant) db in
         let p := set_name p (u_name participant) in
         (dset key p mem, db))
      raw ([], db) in
  (* recently inactive participants *)
  let mem :=
    fold_left
      (fun mem p => if has_key (login p) mem then mem else dset (login p) p mem)
      (values (tbl_participants db)) mem in
  (mem, db).

(** [comment.reaction_set.all()] *)
Definition reaction_set (db : Database) (id : string) : list Reaction :=
  filter (fun r => match r_review r with
                   | Some c => String.eqb c id
                   | None => false
                   end)
         (values (tbl_reactions db)).

Definition refresh_comment (c : Comment) (comment : RawComment) : Comment :=
  mkComment (c_id c) (rc_bodyText comment) (rc_diffHunk comment)
            (parse_time (Some (rc_createdAt comment)))
            (parse_time (rc_lastEditedAt comment))
            (c_author c) (c_score c) (c_pos c) (c_weighted_pos c)
            (c_neg c) (c_weighted_neg c).

Definition set_author (c : Comment) (a : option string) : Comment :=
  mkComment (c_id c) (c_body c) (c_diff c) (c_created_at c)
            (c_last_edited_at c) a (c_score c) (c_pos c) (c_weighted_pos c)
            (c_neg c) (c_weighted_neg c).

(** One turn of the refresh loop over [Comment.objects.all()].  When the
    feed's author login is non-empty the comment's author is the very object
    held in [participants], so the punishment lands there; otherwise
    [comment.author] is what the row's foreign key gives (nothing, or a copy
    read from the table that nobody saves). *)
Definition refresh_step (snapshot : Dict RawComment) (db : Database)
    (st : Dict Participant * Dict Comment) (c : Comment)
  : result (Dict Participant * Dict Comment) :=
  let '(participants, comments) := st in
  comment <- dindex (c_id c) snapshot ;;
  let c := refresh_comment c comment in
  let login := u_login (rc_author comment) in
  if truthy login then
    a <- dindex login participants ;;
    let c := set_author c (Some login) in
    a' <- check_comment_update (c_last_edited_at c) (Some a)
                               (reaction_set db (c_id c)) ;;
    let participants :=
      match a' with
      | Some a' => dset login a' participants
      | None => participants
      end in
    Ok (participants, dset (c_id c) c comments)
  else
    a <- match c_author c with
         | None => Ok None
         | Some l =>
             match dget l (tbl_participants db) with
             | Some a => Ok (Some a)
             | None => Err (DoesNotExist l)
             end
         end ;;
    _ <- check_comment_update (c_last_edited_at c) a
                              (reaction_set db (c_id c)) ;;
    Ok (participants, dset (c_id c) c comments).

(** [Comment.objects.bulk_create(new_comments)]: the snapshot's comments
    whose id is not persisted yet, appended in snapshot order. *)
Definition bulk_create_comments (snapshot : Dict RawComment) (db : Database)
  : Database :=
  fold_left
    (fun db' kc =>
       let comment := snd kc in
       if has_key (rc_id comment) (tbl_comments db) then db'
       else set_tbl_comments db'
              (tbl_comments db'
               ++ [(rc_id comment, new_comment (rc_id comment))])%list)
    snapshot db.

Definition load_comments_to_memory (snapshot : Dict RawComment)
    (participants : Dict Participant) (db : Database)
  : result (Dict Participant * Dict Comment * Database) :=
  let db := bulk_create_comments snapshot db in
  let all_comments := values (tbl_comments db) in
  st <- foldM (refresh_step snapshot db) all_comments (participants, []) ;;
  Ok (fst st, snd st, db).

(** One turn of [__load_reactions_to_memory].  [get_or_create] gives the
    persisted row when there is one; the row of a new reaction carries no
    giver, receiver or review until the dump writes the populated object, so
    no relation selects it before then and the table is left to the dump. *)
Definition load_reaction_step (participants : Dict Participant)
    (comments : Dict Comment) (db : Database)
    (reactions : Dict Reaction) (kr : string * StampedReaction)
  : result (Dict Reaction) :=
  let '(key, reaction) := kr in
  let raw := sr_raw reaction in
  let row := dget (rr_id raw) (tbl_reactions db) in
  let giver_login := u_login (rr_user raw) in
  giver <- (if truthy giver_login
            then _ <- dindex giver_login participants ;; Ok (Some giver_login)
            else Ok (match row with Some r => r_giver r | None => None end)) ;;
  let receiver_login := sr_receiver reaction in
  receiver <- (if truthy receiver_login
               then _ <- dindex receiver_login participants ;;
                    Ok (Some receiver_login)
               else Ok (match row with Some r => r_receiver r | None => None end)) ;;
  let comment_id := sr_comment_id reaction in
  _ <- dindex comment_id comments ;;
  Ok (dset key
           (mkReaction (rr_id raw) (rr_createdAt raw) (rr_content raw)
                       giver receiver (Some comment_id))
           reactions).

Definition load_reactions_to_memory (snapshot : Dict StampedReaction)
    (participants : Dict Participant) (comments : Dict Comment)
    (db : Database) : result (Dict Reaction) :=
  foldM (load_reaction_step participants comments db) snapshot [].

(** The three dumps: [save()] writes the object under its primary key.  A
    failing save is caught and logged by the source; saves succeed here. *)
Definition dump_participants_to_database (participants : Dict Participant)
    (db : Database) : Database :=
  set_tbl_participants db
    (fold_left (fun t kp => dset (login (snd kp)) (snd kp) t)
               participants (tbl_participants db)).

Definition dump_comments_to_database (comments : Dict Comment)
    (db : Database) : Database :=
  set_tbl_comments db
    (fold_left (fun t kc => dset (c_id (snd kc)) (snd kc) t)
               comments (tbl_comments db)).

Definition dump_reactions_to_database (reactions : Dict Reaction)
    (db : Database) : Database :=
  set_tbl_reactions db
    (fold_left (fun t kr => dset (r_id (snd kr)) (snd kr) t)
               reactions (tbl_reactions db)).

(* ================================================================== *)
(** ** Score aggregator: [__update_score] *)

Definition has_login (fk : option string) (l : string) : bool :=
  match fk with Some l' => String.eqb l' l | None => false end.

(** [participant.receive.all()] and [participant.give.all()] *)
Definition receive (db : Database) (p : Participant) : list Reaction :=
  filter (fun r => has_login (r_receiver r) (login p))
         (values (tbl_reactions db)).

Definition give (db : Database) (p : Participant) : list Reaction :=
  filter (fun r => has_login (r_giver r) (login p))
         (values (tbl_reactions db)).

(** [participant.comment_set.all()] *)
Definition comment_set (db : Database) (p : Participant) : list Comment :=
  filter (fun c => has_login (c_author c) (login p))
         (values (tbl_comments db)).

(** The test guarding [continue] in both loops:
    [last_active_at and reaction.created_at < last_active_at]. *)
Definition is_old (participant : Participant) (reaction : Reaction) : bool :=
  match last_active_at participant with
  | Some t => (r_created_at reaction <? t)%Z
  | None => false
  end.

(** [reaction.giver.weight_factor]: the giver is read through the foreign
    key, so from the participants table. *)
Definition giver_weight_factor (givers : Dict Participant)
    (reaction : Reaction) : result Q :=
  match r_giver reaction with
  | None => Err AttributeError
  | Some g =>
      match dget g givers with
      | Some gp => Ok (weight_factor gp)
      | None => Err (DoesNotExist g)
      end
  end.

Record Received : Type := mkReceived {
  p1 : Q; n1 : Q; pos_cnt : Z; neg_cnt : Z }.

Record Given : Type := mkGiven { p2 : Z; n2 : Z }.

Definition THUMBS_UP : string := "THUMBS_UP".
Definition THUMBS_DOWN : string := "THUMBS_DOWN".

(** Body of the loop over received reactions.  The updates of
    [reaction.review] are made on an object read through the reaction of this
    query, which the handler never saves; they reach nothing the handler
    keeps and are not carried. *)
Definition received_step (givers : Dict Participant)
    (participant : Participant) (acc : Received) (reaction : Reaction)
  : result Received :=
  if is_old participant reaction then Ok acc
  else
    w <- giver_weight_factor givers reaction ;;
    if contains THUMBS_UP (r_content reaction) then
      Ok (mkReceived (p1 acc + w) (n1 acc) (pos_cnt acc + 1)%Z (neg_cnt acc))
    else if contains THUMBS_DOWN (r_content reaction) then
      Ok (mkReceived (p1 acc) (n1 acc + w) (pos_cnt acc) (neg_cnt acc + 1)%Z)
    else Ok acc.

(** Body of the loop over given reactions. *)
Definition given_step (participant : Participant) (acc : Given)
    (reaction : Reaction) : Given :=
  if is_old participant reaction then acc
  else if contains THUMBS_UP (r_content reaction) then
    mkGiven (p2 acc + 1)%Z (n2 acc)
  else if contains THUMBS_DOWN (r_content reaction) then
    mkGiven (p2 acc) (n2 acc + 1)%Z
  else acc.

Definition c1 : Q := 5 # 100.
Definition c2 : Q := 2 # 10.

(** One participant's turn of the outer loop, given what the two related
    managers return. *)
Definition update_score_one (givers : Dict Participant)
    (reactions_in reactions_out : list Reaction) (participant : Participant)
  : result Participant :=
  r <- foldM (received_step givers participant) reactions_in
             (mkReceived 0 0 0 0) ;;
  let g := fold_left (given_step participant) reactions_out (mkGiven 0 0) in
  let participant :=
    add_counters participant (pos_cnt r) (p1 r) (p2 g)
                 (neg_cnt r) (n1 r) (n2 g) in
  let s := p1 r - n1 r + c1 * inject_Z (p2 g) + c2 * inject_Z (n2 g) in
  Ok (set_score participant (score participant + s)).

Definition update_score (db : Database) (participants : Dict Participant)
  : result (Dict Participant) :=
  foldM
    (fun mem kp =>
       let '(key, participant) := kp in
       p' <- update_score_one (tbl_participants db) (receive db participant)
                              (give db participant) participant ;;
       Ok (dset key p' mem))
    participants participants.

(* ================================================================== *)
(** ** Rank assigner: [__update_rankings] *)

Definition Qltb (a b : Q) : bool := negb (Qle_bool b a).

(** [a] may stand before [b] under [order_by('-score', '-pos_in')]. *)
Definition before (a b : Participant) : bool :=
  Qltb (score b) (score a)
  || (Qeq_bool (score a) (score b) && (pos_in b <=? pos_in a)%Z).

Fixpoint insert (p : Participant) (l : list Participant) : list Participant :=
  match l with
  | [] => [p]
  | q :: l' => if before p q then p :: l else q :: insert p l'
  end.

(** [Participant.objects.order_by('-score', '-pos_in')]: rows that agree on
    both keys stay in table order (the query leaves their order open). *)
Definition order_by (rows : list Participant) : list Participant :=
  fold_right insert [] rows.

(** Truthiness of a nullable integer ([if participant.rank:]). *)
Definition truthy_int (z : option Z) : bool :=
  match z with
  | Some r => negb (r =? 0)%Z
  | None => false
  end.

(** [last_score != participant.score]; [None] is the initial [-inf]. *)
Definition differs (last_score : option Q) (s : Q) : bool :=
  match last_score with
  | Some l => negb (Qeq_bool l s)
  | None => true
  end.

Record Ranking : Type := mkRanking {
  cur_rank : Z;
  last_score : option Q;
  ranked : list Participant }.   (* participants in the order they were ranked *)

Definition rank_step (st : Ranking) (participant : Participant) : Ranking :=
  let bump := (cur_rank st =? 0)%Z || differs (last_score st) (score participant) in
  let rank' := if bump then (cur_rank st + 1)%Z else cur_rank st in
  let last' := if bump then Some (score participant) else last_score st in
  let participant :=
    if truthy_int (rank participant)
    then set_trend participant
           (Some (match rank participant with Some r => r | None => 0 end
                  - rank')%Z)
    else participant in
  let participant := set_rank participant (Some rank') in
  mkRanking rank' last' (ranked st ++ [participant])%list.

Definition assign_ranks (ordered : list Participant) : list Participant :=
  ranked (fold_left rank_step ordered (mkRanking 0 None [])).

Definition update_rankings (db : Database) (participants : Dict Participant)
  : Dict Participant * Database :=
  let db := dump_participants_to_database participants db in
  let participants_all := order_by (values (tbl_participants db)) in
  (fold_left (fun mem p => dset (login p) p mem)
             (assign_ranks participants_all) participants,
   db).

(* ================================================================== *)
(** ** Weight factor recalculator: [__update_weight_factors] *)

(** Body of the first loop: [if participant.score > max_score: ...]. *)
Definition max_step (m : Q) (kp : string * Participant) : Q :=
  if Qltb m (score (snd kp)) then score (snd kp) else m.

Definition max_score (participants : Dict Participant) : Q :=
  fold_left max_step participants 1.

Definition recalculate (m : Q) (participant : Participant) : Participant :=
  if Qltb (score participant) 0 then set_weight_factor participant 0
  else
    let participant := set_weight_factor participant (score participant / m) in
    let participant :=
      set_weight_factor participant (weight_factor participant * (9 # 10)) in
    set_weight_factor participant (weight_factor participant + (1 # 10)).

Definition update_weight_factors (participants : Dict Participant)
  : Dict Participant :=
  let m := max_score participants in
  map (fun kp => (fst kp, recalculate m (snd kp))) participants.

(* ================================================================== *)
(** ** Watermark: [__update_time] *)

Definition time_comment_step (last : option time) (comment : Comment)
  : result (option time) :=
  let last := match last with
              | None => c_created_at comment
              | Some _ => last
              end in
  match c_created_at comment, last with
  | Some c, Some l =>
      let l := if (l <? c)%Z then c else l in
      Ok (Some (match c_last_edited_at comment with
                | Some e => if (l <? e)%Z then e else l
                | None => l
                end))
  | _, _ => Err TypeError
  end.

Definition time_reaction_step (last : option time) (reaction : Reaction)
  : option time :=
  let l := match last with
           | None => r_created_at reaction
           | Some l => l
           end in
  Some (if (l <? r_created_at reaction)%Z then r_created_at reaction else l).

(** One participant's turn, given what the three related managers return. *)
Definition update_time_one (comments : list Comment)
    (given received : list Reaction) (participant : Participant)
  : result Participant :=
  last <- foldM time_comment_step comments (last_active_at participant) ;;
  let last := fold_left time_reaction_step given last in
  let last := fold_left time_reaction_step received last in
  Ok (set_last_active_at participant last).

Definition update_time (db : Database) (participants : Dict Participant)
  : result (Dict Participant) :=
  foldM
    (fun mem kp =>
       let '(key, participant) := kp in
       p' <- update_time_one (comment_set db participant) (give db participant)
                             (receive db participant) participant ;;
       Ok (dset key p' mem))
    participants participants.

(* ================================================================== *)
(** ** One run: [MetaReviewHandler(content, date).handle()] *)

Definition handle (dflt : Defaults) (content : list Issue) (db : Database)
  : result Database :=
  let snapshot := init content in
  let '(participants, db) :=
    load_participants_to_memory dflt (raw_participants snapshot) db in
  '(participants, comments, db) <-
    load_comments_to_memory (raw_comments snapshot) participants db ;;
  reactions <-
    load_reactions_to_memory (raw_reactions snapshot) participants comments db ;;
  let db := dump_participants_to_database participants db in
  let db := dump_comments_to_database comments db in
  let db := dump_reactions_to_database reactions db in
  participants <- update_score db participants ;;
  let '(participants, db) := update_rankings db participants in
  let participants := update_weight_factors participants in
  participants <- update_time db participants ;;
  let db := dump_participants_to_database participants db in
  let db := dump_comments_to_database comments db in
  let db := dump_reactions_to_database reactions db in
  Ok db.

(* ================================================================== *)
(** ** Vocabulary of the statements *)

(** The reaction was created strictly before the edit. *)
Definition precedes_edit (last_edited_at : option time) (reaction : Reaction)
  : bool :=
  match last_edited_at with
  | Some t => (r_created_at reaction <? t)%Z
  | None => false
  end.

(** The reactions the two loops do not skip. *)
Definition counted (participant : Participant) (rs : list Reaction)
  : list Reaction :=
  filter (fun r => negb (is_old participant r)) rs.

Definition is_up (r : Reaction) : bool := contains THUMBS_UP (r_content r).
Definition is_down (r : Reaction) : bool := contains THUMBS_DOWN (r_content r).
(** What the [elif] branch sees: THUMBS_DOWN in a content without THUMBS_UP. *)
Definition is_down_only (r : Reaction) : bool := negb (is_up r) && is_down r.

(** The giver's weight factor (0 when the giver cannot be read). *)
Definition weight (givers : Dict Participant) (r : Reaction) : Q :=
  match giver_weight_factor givers r with
  | Ok w => w
  | Err _ => 0
  end.

Definition weight_sum (givers : Dict Participant) (rs : list Reaction) : Q :=
  fold_right (fun r acc => weight givers r + acc) 0 rs.

Definition count (rs : list Reaction) : Q :=
  inject_Z (Z.of_nat (List.length rs)).

(** [S = P1 - N1 + 0.05 P2 + 0.2 N2], the negative kind being given by
    [down]. *)
Definition delta (givers : Dict Participant) (participant : Participant)
    (down : Reaction -> bool) (reactions_in reactions_out : list Reaction)
  : Q :=
  weight_sum givers (filter is_up (counted participant reactions_in))
  - weight_sum givers (filter down (counted participant reactions_in))
  + (5 # 100) * count (filter is_up (counted participant reactions_out))
  + (2 # 10) * count (filter down (counted participant reactions_out)).

(** [max(1.0, s_1, ..., s_n)] over the participants' scores. *)
Definition floor_max (participants : Dict Participant) : Q :=
  fold_right (fun kp m => Qmax (score (snd kp)) m) 1 participants.

(** A participant holds the maximum score. *)
Definition is_top (ps : Dict Participant) (p : Participant) : Prop :=
  forall q, In q (values ps) -> score q <= score p.

(** Scores do not increase along the list. *)
Definition by_score_desc (a b : Participant) : Prop := score b <= score a.

(** The ranking loop read front to back: the counter and [last_score] after
    a participant's turn, the participant as the turn leaves it, and the
    list of participants the loop leaves when it is entered with a given
    counter and [last_score]. *)
Definition next_rank (cur : Z) (last : option Q) (p : Participant) : Z :=
  if (cur =? 0)%Z || differs last (score p) then (cur + 1)%Z else cur.

Definition next_last (cur : Z) (last : option Q) (p : Participant)
  : option Q :=
  if (cur =? 0)%Z || differs last (score p) then Some (score p) else last.

Definition stamp (r : Z) (p : Participant) : Participant :=
  set_rank
    (if truthy_int (rank p)
     then set_trend p (Some (match rank p with Some r0 => r0 | None => 0 end - r)%Z)
     else p)
    (Some r).

Fixpoint rank_from (cur : Z) (last : option Q) (l : list Participant)
  : list Participant :=
  match l with
  | [] => []
  | p :: l' =>
      stamp (next_rank cur last p) p
      :: rank_from (next_rank cur last p) (next_last cur last p) l'
  end.

(* ================================================================== *)
(** ** Sample data *)

Module Feeds.
Definition alice : RawUser := mkRawUser "alice" "Alice".
Definition bob : RawUser := mkRawUser "bob" "Bob".
(** A deleted account: the feed gives it an empty login. *)
Definition ghost : RawUser := mkRawUser "" "".

Definition thumb_by_bob : RawReaction := mkRawReaction "r1" 10 THUMBS_UP bob.
Definition thumb_by_ghost : RawReaction := mkRawReaction "r2" 10 THUMBS_UP ghost.

(** Alice's review comment, approved by Bob. *)
Definition reviewed : list Issue :=
  [mkIssue (Some [mkRawComment "c1" 5 None "body" "diff" alice [thumb_by_bob]])].
(** Alice's review comment, approved by a deleted account. *)
Definition ghost_reactor : list Issue :=
  [mkIssue (Some [mkRawComment "c1" 5 None "body" "diff" alice [thumb_by_ghost]])].
(** A deleted account's review comment, approved by Bob. *)
Definition ghost_author : list Issue :=
  [mkIssue (Some [mkRawComment "c1" 5 None "body" "diff" ghost [thumb_by_bob]])].

Definition dflt : Defaults := mkDefaults 0 1.
End Feeds.

Module PunishmentExample.
Definition carol : Participant :=
  mkParticipant "carol" "Carol" 3 None None 1 0 0 0 0 0 0 None 0.
(** Two reactions, both created before the edit at instant 9. *)
Definition early : list Reaction :=
  [mkReaction "r1" 4 THUMBS_UP (Some "dave") (Some "carol") (Some "c1");
   mkReaction "r2" 6 THUMBS_DOWN (Some "erin") (Some "carol") (Some "c1")].
End PunishmentExample.

Module CheckpointExample.
Definition dave : Participant :=
  mkParticipant "dave" "Dave" 2 (Some 1%Z) None 1 1 1 0 0 0 0 (Some 20%Z) 0.
Definition erin : Participant :=
  mkParticipant "erin" "Erin" 0 None None (1 # 2) 0 0 0 0 0 0 None 0.
Definition givers : Dict Participant := [("dave", dave); ("erin", erin)].
(** One reaction from before Dave's checkpoint, one from after it. *)
Definition received : list Reaction :=
  [mkReaction "r1" 15 THUMBS_UP (Some "erin") (Some "dave") (Some "c1");
   mkReaction "r2" 25 THUMBS_UP (Some "erin") (Some "dave") (Some "c1")].
End CheckpointExample.

Module DeltaExample.
Definition dave : Participant :=
  mkParticipant "dave" "Dave" 2 None None 1 0 0 0 0 0 0 None 0.
Definition erin : Participant :=
  mkParticipant "erin" "Erin" 0 None None 1 0 0 0 0 0 0 None 0.
Definition givers : Dict Participant := [("dave", dave); ("erin", erin)].
(** A content that holds both markers. *)
Definition both : list Reaction :=
  [mkReaction "r1" 7 "THUMBS_UP THUMBS_DOWN" (Some "erin") (Some "dave")
              (Some "c1")].
Definition mixed : list Reaction :=
  [mkReaction "r2" 7 THUMBS_UP (Some "erin") (Some "dave") (Some "c1");
   mkReaction "r3" 8 THUMBS_DOWN (Some "erin") (Some "dave") (Some "c1");
   mkReaction "r4" 9 "HEART" (Some "erin") (Some "dave") (Some "c1")].
End DeltaExample.

Module Rerun.
(** The tables as the dumps leave them on a first run over
    [Feeds.reviewed]: Alice's comment of instant 5 and Bob's THUMBS_UP on it
    of instant 10, nobody having a checkpoint yet. *)
Definition participants (dflt : Defaults) : Dict Participant :=
  [("alice", set_name (new_participant dflt "alice") "Alice");
   ("bob", set_name (new_participant dflt "bob") "Bob")].

Definition db (dflt : Defaults) : Database :=
  mkDatabase (participants dflt)
    [("c1", mkComment "c1" "body" "diff" (Some 5%Z) None (Some "alice")
                      0 0 0 0 0)]
    [("r1", mkReaction "r1" 10 THUMBS_UP (Some "bob") (Some "alice")
                       (Some "c1"))].
End Rerun.

Module StaleComment.
(** A comment persisted by an earlier run that the feed no longer lists. *)
Definition stale : Comment :=
  mkComment "c0" "old body" "old diff" (Some 1%Z) None (Some "alice")
            0 0 0 0 0.
Definition db : Database := mkDatabase [] [("c0", stale)] [].
Definition snapshot : Dict RawComment := raw_comments (init Feeds.reviewed).
End StaleComment.

Module WeightExample.
(** The docstring's example: Alice 2, Bob 0.8, Charlie 10. *)
Definition mk (l : string) (s : Q) : string * Participant :=
  (l, mkParticipant l l s None None 0 0 0 0 0 0 0 None 0).
Definition trio : Dict Participant :=
  [mk "alice" 2; mk "bob" (8 # 10); mk "charlie" 10].
(** Nobody reaches 1.0. *)
Definition low : Dict Participant := [mk "alice" (1 # 2); mk "bob" (1 # 4)].
End WeightExample.

Module RankExample.
Definition mk (l : string) (s : Q) (pin : Z) : Participant :=
  mkParticipant l l s None None 0 pin 0 0 0 0 0 None 0.
(** Two participants tie on the score and differ on [pos_in]. *)
Definition rows : list Participant :=
  [mk "bob" 1 2; mk "alice" 3 0; mk "carol" 1 5; mk "dave" (-1) 0].
(** The same participants by descending score, then descending [pos_in]. *)
Definition ordered : list Participant :=
  [mk "alice" 3 0; mk "carol" 1 5; mk "bob" 1 2; mk "dave" (-1) 0].
End RankExample.

(* ================================================================== *)
(** * Properties *)

(* ------------------------------------------------------------------ *)
(** ** Loops and dictionaries *)

Lemma foldM_app {A S : Type} (body : S -> A -> result S) (l1 l2 : list A) (s : S) :
  foldM body (l1 ++ l2) s = (s' <- foldM body l1 s ;; foldM body l2 s').
Proof.
  revert s; induction l1 as [|a l1 IH]; intro s; simpl.
  - reflexivity.
  - destruct (body s a) as [s'|e]; simpl; [apply IH | reflexivity].
Qed.

(** A loop fails as soon as one element makes its body raise whatever the
    state it is entered with. *)
Lemma foldM_raises {A S : Type} (body : S -> A -> result S) (l : list A) (a : A) :
  In a l ->
  (forall s, exists e, body s a = Err e) ->
  forall s, exists e, foldM body l s = Err e.
Proof.
  intros Hin Hbad.
  induction l as [|b l IH]; [contradiction|].
  intro s; simpl.
  destruct Hin as [->|Hin].
  - destruct (Hbad s) as [e He]. rewrite He. exists e. reflexivity.
  - destruct (body s b) as [s'|e]; simpl.
    + apply (IH Hin).
    + exists e. reflexivity.
Qed.

Lemma has_key_dset_same {V : Type} (k : string) (v : V) (d : Dict V) :
  has_key k (dset k v d) = true.
Proof.
  unfold has_key.
  induction d as [|[k' v'] d IH]; simpl.
  - rewrite String.eqb_refl. reflexivity.
  - destruct (String.eqb k k') eqn:E; simpl; rewrite ?String.eqb_refl, ?E; auto.
Qed.

Lemma has_key_dset_mono {V : Type} (k k0 : string) (v : V) (d : Dict V) :
  has_key k d = true -> has_key k (dset k0 v d) = true.
Proof.
  unfold has_key.
  induction d as [|[k' v'] d IH]; simpl; [discriminate|].
  destruct (String.eqb k0 k') eqn:E0; simpl.
  - apply String.eqb_eq in E0; subst k0.
    destruct (String.eqb k k'); auto.
  - destruct (String.eqb k k'); auto.
Qed.

(* ------------------------------------------------------------------ *)
(** ** Normalizer: who gets registered *)

Lemma register_users_mono (author : RawUser) (rs : list RawReaction)
    (d : Dict RawUser) (key : string) :
  has_key key d = true -> has_key key (register_users author rs d) = true.
Proof.
  unfold register_users.
  revert d; induction rs as [|r rs IH]; intros d Hk; simpl; auto.
  apply IH. destruct (truthy _); auto using has_key_dset_mono.
Qed.

Lemma register_comment_mono (d : Dict RawUser) (kc : string * RawComment)
    (key : string) :
  has_key key d = true -> has_key key (register_comment d kc) = true.
Proof.
  intro Hk. unfold register_comment.
  assert (H : has_key key
                (if truthy (u_login (rc_author (snd kc)))
                 then dset (u_login (rc_author (snd kc))) (rc_author (snd kc)) d
                 else d) = true)
    by (destruct (truthy _); auto using has_key_dset_mono).
  destruct (rc_reactions (snd kc)); auto using register_users_mono.
Qed.

Lemma fold_register_mono (cs : Dict RawComment) (d : Dict RawUser)
    (key : string) :
  has_key key d = true ->
  has_key key (fold_left register_comment cs d) = true.
Proof.
  revert d; induction cs as [|kc cs IH]; intros d Hk; simpl; auto.
  apply IH, register_comment_mono, Hk.
Qed.

Lemma register_users_adds (author : RawUser) (rs : list RawReaction)
    (d : Dict RawUser) (reaction : RawReaction) :
  truthy (u_login author) = true ->
  In reaction rs ->
  has_key (u_login (rr_user reaction)) (register_users author rs d) = true.
Proof.
  intros Ht. revert d; induction rs as [|r rs IH]; intros d Hin;
    [contradiction|].
  destruct Hin as [->|Hin].
  - change (register_users author (reaction :: rs) d)
      with (register_users author rs
              (if truthy (u_login author)
               then dset (u_login (rr_user reaction)) (rr_user reaction) d
               else d)).
    rewrite Ht. apply register_users_mono, has_key_dset_same.
  - apply (IH _ Hin).
Qed.

(** A reaction's user is registered as soon as the comment's AUTHOR has a
    non-empty login, whatever the user's own login is. *)
Lemma init_participants_guard (comments : Dict RawComment) (k : string)
    (comment : RawComment) (reaction : RawReaction) :
  In (k, comment) comments ->
  In reaction (rc_reactions comment) ->
  truthy (u_login (rc_author comment)) = true ->
  has_key (u_login (rr_user reaction)) (init_participants comments) = true.
Proof.
  unfold init_participants.
  generalize (@nil (string * RawUser)).
  induction comments as [|kc comments IH]; intros acc Hin Hr Ht;
    [contradiction|].
  simpl. destruct Hin as [->|Hin].
  - apply fold_register_mono. unfold register_comment; cbn [snd].
    destruct (rc_reactions comment) as [|r rs] eqn:E; [contradiction|].
    apply register_users_adds; assumption.
  - apply IH; assumption.
Qed.

(** C8 (fails on the code): a reaction by an account with an empty login, on a
    comment whose author has a login, puts an entry keyed by the empty login
    into the participants mapping; and a user with a login who reacts to a
    comment of an account with an empty login is not registered. *)
Theorem init_registers_empty_login :
  dget "" (raw_participants (init Feeds.ghost_reactor)) = Some Feeds.ghost
  /\ dget "bob" (raw_participants (init Feeds.ghost_author)) = None.
Proof. split; reflexivity. Qed.

(* ------------------------------------------------------------------ *)
(** ** A run over a feed with a deleted account *)

(** The aggregator reads the giver of a reaction it does not skip before it
    looks at the content: a reaction whose giver was never attached makes
    the participant's turn raise. *)
Lemma received_step_unattached (givers : Dict Participant) (p : Participant)
    (acc : Received) (r : Reaction) :
  is_old p r = false ->
  r_giver r = None ->
  received_step givers p acc r = Err AttributeError.
Proof.
  intros Hold Hg. unfold received_step, giver_weight_factor.
  now rewrite Hold, Hg.
Qed.

Lemma update_score_one_unattached (givers : Dict Participant)
    (p : Participant) (pre post reactions_out : list Reaction) (r : Reaction)
    (acc : Received) :
  foldM (received_step givers p) pre (mkReceived 0 0 0 0) = Ok acc ->
  is_old p r = false ->
  r_giver r = None ->
  update_score_one givers (pre ++ r :: post) reactions_out p
  = Err AttributeError.
Proof.
  intros Hpre Hold Hg. unfold update_score_one.
  rewrite foldM_app, Hpre. simpl.
  now rewrite (received_step_unattached givers p acc r Hold Hg).
Qed.

(** C7 (fails on the code): with a deleted account's reaction on Alice's
    comment, the run stops in the score aggregator with the exception raised
    by reading the weight factor of a giver that was never attached; with a
    deleted account as the author of a comment Bob reacted to, it stops in
    the reaction loader looking Bob up. *)
Theorem handle_deleted_account_raises :
  (forall dflt, handle dflt Feeds.ghost_reactor empty_db = Err AttributeError)
  /\ (forall dflt, handle dflt Feeds.ghost_author empty_db = Err (KeyError "bob")).
Proof. split; intro dflt; reflexivity. Qed.

(* ------------------------------------------------------------------ *)
(** ** Punishment rule *)

Lemma need_punishment_existsb (last_edited_at : option time)
    (reactions : list Reaction) :
  need_punishment last_edited_at reactions
  = existsb (precedes_edit last_edited_at) reactions.
Proof.
  unfold need_punishment.
  assert (H : forall flag,
             fold_left
               (fun flag reaction =>
                  match last_edited_at with
                  | Some t => if (r_created_at reaction <? t)%Z then true else flag
                  | None => flag
                  end) reactions flag
             = flag || existsb (precedes_edit last_edited_at) reactions).
  { induction reactions as [|r rs IH]; intro flag; simpl.
    - now rewrite orb_false_r.
    - rewrite IH. unfold precedes_edit.
      destruct last_edited_at as [t|]; simpl.
      + destruct (r_created_at r <? t)%Z; simpl; [now rewrite orb_true_r | reflexivity].
      + reflexivity. }
  apply H.
Qed.

(** C2 (as amended): for a comment that has an author, the call changes the
    author's punishment counter and score by one penalty [k], ADDED to the
    counter and subtracted from the score, where [k] is 0.5 when the edit is
    strictly later than the creation of at least one reaction of the comment
    (however many) and 0 otherwise (no such reaction, or never edited). *)
Theorem check_comment_update_penalty (last_edited_at : option time)
    (author : Participant) (reactions : list Reaction) :
  exists author',
    check_comment_update last_edited_at (Some author) reactions
    = Ok (Some author')
    /\ let k := if existsb (precedes_edit last_edited_at) reactions
                then 1 # 2 else 0 in
       punishment author' == punishment author + k
       /\ score author' == score author - k.
Proof.
  unfold check_comment_update.
  rewrite need_punishment_existsb.
  destruct (existsb _ _).
  - exists (punish author). split; [reflexivity|].
    simpl. split; reflexivity.
  - exists author. split; [reflexivity|].
    simpl. split; ring.
Qed.

(** C2 (as stated, refuted): after a late edit the punishment counter is not
    the old counter minus 0.5; it went up by 0.5. *)
Lemma check_comment_update_adds_to_counter :
  exists author',
    check_comment_update (Some 9%Z) (Some PunishmentExample.carol)
                         PunishmentExample.early
    = Ok (Some author')
    /\ punishment author' == 1 # 2
    /\ ~ punishment author' == punishment PunishmentExample.carol - (1 # 2).
Proof.
  eexists. split; [reflexivity|]. split.
  - reflexivity.
  - intro H. vm_compute in H. discriminate H.
Qed.

(* ------------------------------------------------------------------ *)
(** ** Score aggregator *)

(** A reaction below the checkpoint passes through both loop bodies without
    touching the accumulators (and without its giver being read). *)
Lemma received_step_old (givers : Dict Participant) (p : Participant)
    (acc : Received) (r : Reaction) :
  is_old p r = true -> received_step givers p acc r = Ok acc.
Proof. intro H. unfold received_step. now rewrite H. Qed.

Lemma given_step_old (p : Participant) (acc : Given) (r : Reaction) :
  is_old p r = true -> given_step p acc r = acc.
Proof. intro H. unfold given_step. now rewrite H. Qed.

Lemma received_loop_filter (givers : Dict Participant) (p : Participant)
    (rs : list Reaction) (acc : Received) :
  foldM (received_step givers p) rs acc
  = foldM (received_step givers p) (filter (fun r => negb (is_old p r)) rs) acc.
Proof.
  revert acc; induction rs as [|r rs IH]; intro acc; simpl; [reflexivity|].
  destruct (is_old p r) eqn:E; simpl.
  - rewrite received_step_old by exact E. simpl. apply IH.
  - destruct (received_step givers p acc r); simpl; [apply IH | reflexivity].
Qed.

Lemma given_loop_filter (p : Participant) (rs : list Reaction) (acc : Given) :
  fold_left (given_step p) rs acc
  = fold_left (given_step p) (filter (fun r => negb (is_old p r)) rs) acc.
Proof.
  revert acc; induction rs as [|r rs IH]; intro acc; simpl; [reflexivity|].
  destruct (is_old p r) eqn:E; simpl.
  - rewrite given_step_old by exact E. apply IH.
  - apply IH.
Qed.

(** C9: for a participant with a checkpoint [t], the aggregator's result (the
    score, every counter, and whether it raises) is the one it gives when
    every reaction created strictly before [t] is taken out of both the
    received and the given reactions. *)
Theorem update_score_skips_old (givers : Dict Participant)
    (participant : Participant) (t : time)
    (reactions_in reactions_out : list Reaction) :
  last_active_at participant = Some t ->
  update_score_one givers reactions_in reactions_out participant
  = update_score_one givers
      (filter (fun r => negb (r_created_at r <? t)%Z) reactions_in)
      (filter (fun r => negb (r_created_at r <? t)%Z) reactions_out)
      participant.
Proof.
  intro Ht. unfold update_score_one.
  rewrite (received_loop_filter givers participant reactions_in).
  rewrite (given_loop_filter participant reactions_out).
  unfold is_old. rewrite Ht. reflexivity.
Qed.

Lemma update_score_skips_old_witness :
  update_score_one CheckpointExample.givers CheckpointExample.received []
                   CheckpointExample.dave
  = update_score_one CheckpointExample.givers
      (filter (fun r => negb (r_created_at r <? 20)%Z) CheckpointExample.received)
      (filter (fun r => negb (r_created_at r <? 20)%Z) [])
      CheckpointExample.dave.
Proof.
  apply (update_score_skips_old CheckpointExample.givers CheckpointExample.dave 20%Z).
  reflexivity.
Defined.

(** *** The score delta, stated over the reactions rather than the loops *)

Section Delta.
Variable givers : Dict Participant.
Variable participant : Participant.

Lemma received_step_counted (acc : Received) (r : Reaction) (w : Q) :
  is_old participant r = false ->
  giver_weight_factor givers r = Ok w ->
  received_step givers participant acc r
  = Ok (if is_up r
        then mkReceived (p1 acc + w) (n1 acc) (pos_cnt acc + 1)%Z (neg_cnt acc)
        else if is_down r
        then mkReceived (p1 acc) (n1 acc + w) (pos_cnt acc) (neg_cnt acc + 1)%Z
        else acc).
Proof.
  intros Hold Hw. unfold received_step, is_up, is_down.
  rewrite Hold, Hw. simpl bind.
  destruct (contains THUMBS_UP (r_content r)); [reflexivity|].
  destruct (contains THUMBS_DOWN (r_content r)); reflexivity.
Qed.

Lemma received_loop_sums (rs : list Reaction) (acc : Received) :
  (forall r, In r (counted participant rs) -> exists w, giver_weight_factor givers r = Ok w) ->
  exists acc',
    foldM (received_step givers participant) rs acc = Ok acc'
    /\ p1 acc' == p1 acc + weight_sum givers (filter is_up (counted participant rs))
    /\ n1 acc' == n1 acc + weight_sum givers (filter is_down_only (counted participant rs)).
Proof.
  revert acc; induction rs as [|r rs IH]; intros acc Hg.
  - exists acc. split; [reflexivity|].
    unfold counted; cbn [filter weight_sum fold_right]. split; ring.
  - cbn [foldM]. unfold counted in Hg |- *. cbn [filter] in Hg |- *.
    destruct (is_old participant r) eqn:Eold; cbn [negb] in Hg |- *.
    + rewrite received_step_old by exact Eold. cbn [bind].
      apply IH. exact Hg.
    + destruct (Hg r (or_introl eq_refl)) as [w Hw].
      rewrite (received_step_counted acc r w Eold Hw). cbn [bind].
      assert (Hwt : weight givers r = w) by (unfold weight; now rewrite Hw).
      match goal with
      | |- context [foldM _ rs ?a] =>
          destruct (IH a (fun r0 H0 => Hg r0 (or_intror H0)))
            as (acc' & Hrun & Hp & Hn)
      end.
      exists acc'. split; [exact Hrun|].
      rewrite Hp, Hn. unfold weight_sum, counted. cbn [filter].
      unfold is_down_only at 2.
      destruct (is_up r); [|destruct (is_down r)];
        cbn [negb andb fold_right p1 n1]; rewrite ?Hwt;
        split; ring.
Qed.
Lemma given_step_counted (acc : Given) (r : Reaction) :
  is_old participant r = false ->
  given_step participant acc r
  = if is_up r then mkGiven (p2 acc + 1)%Z (n2 acc)
    else if is_down r then mkGiven (p2 acc) (n2 acc + 1)%Z
    else acc.
Proof. intro Hold. unfold given_step. now rewrite Hold. Qed.

Lemma given_loop_counts (rs : list Reaction) (acc : Given) :
  p2 (fold_left (given_step participant) rs acc)
  = (p2 acc + Z.of_nat (List.length (filter is_up (counted participant rs))))%Z
  /\ n2 (fold_left (given_step participant) rs acc)
    = (n2 acc + Z.of_nat (List.length (filter is_down_only (counted participant rs))))%Z.
Proof.
  revert acc; induction rs as [|r rs IH]; intro acc.
  - cbn. split; lia.
  - cbn [fold_left]. unfold counted in IH |- *. cbn [filter].
    destruct (is_old participant r) eqn:Eold; cbn [negb].
    + rewrite given_step_old by exact Eold. apply IH.
    + rewrite (given_step_counted acc r Eold).
      match goal with
      | |- context [fold_left _ rs ?a] => destruct (IH a) as [Hp Hn]
      end.
      rewrite Hp, Hn. cbn [filter]. unfold is_down_only at 2.
      destruct (is_up r); [|destruct (is_down r)];
        cbn [negb andb List.length p2 n2]; split; lia.
Qed.

Lemma score_delta (reactions_in reactions_out : list Reaction) :
  (forall r, In r (counted participant reactions_in) ->
             exists w, giver_weight_factor givers r = Ok w) ->
  exists participant',
    update_score_one givers reactions_in reactions_out participant
    = Ok participant'
    /\ score participant'
       == score participant + delta givers participant is_down_only reactions_in reactions_out.
Proof.
  intro Hg. unfold update_score_one.
  destruct (received_loop_sums reactions_in (mkReceived 0 0 0 0) Hg)
    as (r & Hrun & Hp & Hn).
  rewrite Hrun. cbn [bind].
  destruct (given_loop_counts reactions_out (mkGiven 0 0)) as [Hp2 Hn2].
  eexists. split; [reflexivity|].
  cbn [score set_score add_counters].
  rewrite Hp2, Hn2, Hp, Hn. unfold delta, count, c1, c2.
  cbn [p1 n1 p2 n2 Z.add]. ring.
Qed.
End Delta.

(** C4 (as amended): when the giver of every non-skipped received reaction
    can be read, the aggregator returns the participant with
    [S = P1 - N1 + 0.05 P2 + 0.2 N2] added to the score it had, where the
    positive kind is "content contains THUMBS_UP" and the negative kind is
    "content contains THUMBS_DOWN and not THUMBS_UP". *)
Theorem update_score_adds_delta (givers : Dict Participant)
    (participant : Participant) (reactions_in reactions_out : list Reaction) :
  (forall r, In r (counted participant reactions_in) ->
             exists w, giver_weight_factor givers r = Ok w) ->
  exists participant',
    update_score_one givers reactions_in reactions_out participant
    = Ok participant'
    /\ score participant'
       == score participant
          + delta givers participant is_down_only reactions_in reactions_out.
Proof. apply score_delta. Qed.

(** C4 (as stated, refuted): a received reaction whose content holds both
    THUMBS_UP and THUMBS_DOWN is counted as positive only; the score moves by
    the giver's weight, not by the claimed [P1 - N1] in which the reaction
    sits on both sides. *)
Lemma update_score_both_markers :
  exists participant',
    update_score_one DeltaExample.givers DeltaExample.both []
                     DeltaExample.dave = Ok participant'
    /\ score participant' == score DeltaExample.dave + 1
    /\ ~ score participant'
         == score DeltaExample.dave
            + delta DeltaExample.givers DeltaExample.dave is_down
                    DeltaExample.both [].
Proof.
  eexists. split; [reflexivity|]. split.
  - reflexivity.
  - intro H. vm_compute in H. discriminate H.
Qed.

Lemma update_score_adds_delta_witness :
  exists participant',
    update_score_one DeltaExample.givers DeltaExample.mixed DeltaExample.both
                     DeltaExample.dave = Ok participant'
    /\ score participant'
       == score DeltaExample.dave
          + delta DeltaExample.givers DeltaExample.dave is_down_only
                  DeltaExample.mixed DeltaExample.both.
Proof.
  apply (update_score_adds_delta DeltaExample.givers DeltaExample.dave).
  intros r H. vm_compute in H.
  destruct H as [<-|[<-|[<-|[]]]]; eexists; reflexivity.
Defined.

(* ------------------------------------------------------------------ *)
(** ** Running the aggregator again over the same reactions *)

(** When every received and given reaction lies strictly below the
    checkpoint, a turn of the aggregator adds nothing to the score. *)
Lemma update_score_all_old (givers : Dict Participant)
    (participant : Participant) (reactions_in reactions_out : list Reaction) :
  forallb (is_old participant) reactions_in = true ->
  forallb (is_old participant) reactions_out = true ->
  exists participant',
    update_score_one givers reactions_in reactions_out participant
    = Ok participant'
    /\ score participant' == score participant.
Proof.
  intros Hin Hout.
  assert (Hnil : forall rs, forallb (is_old participant) rs = true ->
                            counted participant rs = []).
  { induction rs as [|r rs IH]; [reflexivity|]. simpl.
    intro H. apply andb_true_iff in H. destruct H as [Hr Hrs].
    unfold counted in *. simpl. rewrite Hr. simpl. apply IH, Hrs. }
  destruct (score_delta givers participant reactions_in reactions_out)
    as (p' & Hrun & Hs).
  - rewrite (Hnil _ Hin). intros r [].
  - exists p'. split; [exact Hrun|].
    rewrite Hs. unfold delta. rewrite (Hnil _ Hin), (Hnil _ Hout).
    unfold weight_sum, count.
    cbn [filter fold_right List.length Z.of_nat inject_Z]. ring.
Qed.

(** C1 (fails on the code): the aggregator, then the time update, then the
    aggregator again over the very same reactions: the checkpoint the time
    update leaves is the instant of the latest reaction, which the strict
    test does not skip, so Bob's bonus for the one reaction he gave is added
    a second time.  The same shows over two whole runs on one feed. *)
Theorem update_score_twice_counts_again :
  (forall dflt,
     exists ps1 ps2 ps3 b1 b2 b3,
       update_score (Rerun.db dflt) (Rerun.participants dflt) = Ok ps1
       /\ update_time (Rerun.db dflt) ps1 = Ok ps2
       /\ update_score (Rerun.db dflt) ps2 = Ok ps3
       /\ dget "bob" ps1 = Some b1
       /\ dget "bob" ps2 = Some b2
       /\ dget "bob" ps3 = Some b3
       /\ last_active_at b2 = Some 10%Z
       /\ score b3 == score b1 + (5 # 100)
       /\ ~ score b3 == score b1)
  /\ (exists db1 db2 b1 b2,
        handle Feeds.dflt Feeds.reviewed empty_db = Ok db1
        /\ handle Feeds.dflt Feeds.reviewed db1 = Ok db2
        /\ dget "bob" (tbl_participants db1) = Some b1
        /\ dget "bob" (tbl_participants db2) = Some b2
        /\ score b1 == 5 # 100
        /\ score b2 == 10 # 100).
Proof.
  split.
  - intro dflt. do 6 eexists.
    repeat (split; [reflexivity|]).
    split; cbn; unfold c1, c2, inject_Z.
    + ring.
    + intro Heq. lra.
  - do 4 eexists.
    split; [vm_compute; reflexivity|].
    split; [vm_compute; reflexivity|].
    repeat (split; [reflexivity|]).
    reflexivity.
Qed.

(* ------------------------------------------------------------------ *)
(** ** Comment loader: persisted comments absent from the snapshot *)

Lemma bulk_create_keeps_rows (snapshot : Dict RawComment) (db : Database) :
  exists new,
    tbl_comments (bulk_create_comments snapshot db)
    = (tbl_comments db ++ new)%list.
Proof.
  unfold bulk_create_comments.
  assert (H : forall db',
             exists new,
               tbl_comments
                 (fold_left
                    (fun db'0 kc =>
                       if has_key (rc_id (snd kc)) (tbl_comments db) then db'0
                       else set_tbl_comments db'0
                              (tbl_comments db'0
                               ++ [(rc_id (snd kc), new_comment (rc_id (snd kc)))])%list)
                    snapshot db')
               = (tbl_comments db' ++ new)%list).
  { induction snapshot as [|kc snapshot IH]; intro db'; simpl.
    - exists []. now rewrite app_nil_r.
    - destruct (has_key (rc_id (snd kc)) (tbl_comments db)).
      + apply IH.
      + destruct (IH (set_tbl_comments db'
                        (tbl_comments db'
                         ++ [(rc_id (snd kc), new_comment (rc_id (snd kc)))])%list))
          as [new Hnew].
        rewrite Hnew. simpl. rewrite <- app_assoc. eexists. reflexivity. }
  apply H.
Qed.

Lemma refresh_step_missing (snapshot : Dict RawComment) (db : Database)
    (st : Dict Participant * Dict Comment) (c : Comment) :
  dget (c_id c) snapshot = None ->
  refresh_step snapshot db st c = Err (KeyError (c_id c)).
Proof.
  intro H. unfold refresh_step, dindex. destruct st. now rewrite H.
Qed.

Lemma load_comments_raises (snapshot : Dict RawComment)
    (participants : Dict Participant) (db : Database) (c : Comment) :
  In c (values (tbl_comments db)) ->
  dget (c_id c) snapshot = None ->
  exists e, load_comments_to_memory snapshot participants db = Err e.
Proof.
  intros Hin Hmiss. unfold load_comments_to_memory.
  destruct (bulk_create_keeps_rows snapshot db) as [new Hnew].
  assert (Hall : In c (values (tbl_comments (bulk_create_comments snapshot db)))).
  { rewrite Hnew. unfold values in *. rewrite map_app.
    apply in_or_app. left. exact Hin. }
  destruct (foldM_raises
              (refresh_step snapshot (bulk_create_comments snapshot db))
              _ c Hall
              (fun st => ex_intro _ _ (refresh_step_missing _ _ st c Hmiss))
              (participants, [])) as [e He].
  exists e. rewrite He. reflexivity.
Qed.

(** C10: when a persisted comment's id is not a key of the snapshot's
    comments, the turn of the refresh loop taken for that comment raises the
    lookup error for its id whatever the state it is entered with, the
    loader as a whole raises, and the exception is that lookup error once the
    rows listed before it have been refreshed without one. *)
Theorem load_comments_missing_id (snapshot : Dict RawComment)
    (participants : Dict Participant) (db : Database) (c : Comment) :
  In c (values (tbl_comments db)) ->
  dget (c_id c) snapshot = None ->
  (forall st,
      refresh_step snapshot (bulk_create_comments snapshot db) st c
      = Err (KeyError (c_id c)))
  /\ (exists e, load_comments_to_memory snapshot participants db = Err e)
  /\ (forall pre post st,
        values (tbl_comments (bulk_create_comments snapshot db))
        = (pre ++ c :: post)%list ->
        foldM (refresh_step snapshot (bulk_create_comments snapshot db)) pre
              (participants, []) = Ok st ->
        load_comments_to_memory snapshot participants db
        = Err (KeyError (c_id c))).
Proof.
  intros Hin Hmiss.
  split; [intro st; apply refresh_step_missing, Hmiss|].
  split; [apply (load_comments_raises _ _ _ c Hin Hmiss)|].
  intros pre post st Hsplit Hpre.
  unfold load_comments_to_memory.
  rewrite Hsplit, foldM_app, Hpre. simpl.
  rewrite (refresh_step_missing _ _ st c Hmiss). reflexivity.
Qed.

Lemma load_comments_missing_id_witness :
  (forall st,
      refresh_step StaleComment.snapshot
        (bulk_create_comments StaleComment.snapshot StaleComment.db) st
        StaleComment.stale
      = Err (KeyError "c0"))
  /\ (exists e,
        load_comments_to_memory StaleComment.snapshot [] StaleComment.db = Err e)
  /\ (forall pre post st,
        values (tbl_comments
                  (bulk_create_comments StaleComment.snapshot StaleComment.db))
        = (pre ++ StaleComment.stale :: post)%list ->
        foldM (refresh_step StaleComment.snapshot
                 (bulk_create_comments StaleComment.snapshot StaleComment.db))
              pre ([], []) = Ok st ->
        load_comments_to_memory StaleComment.snapshot [] StaleComment.db
        = Err (KeyError "c0")).
Proof.
  apply (load_comments_missing_id StaleComment.snapshot [] StaleComment.db
                                  StaleComment.stale).
  - simpl. left. reflexivity.
  - reflexivity.
Defined.

(** The loader returns only when every persisted comment is in the snapshot. *)
Corollary load_comments_ok_covers (snapshot : Dict RawComment)
    (participants : Dict Participant) (db : Database) (c : Comment) :
  is_ok (load_comments_to_memory snapshot participants db) = true ->
  In c (values (tbl_comments db)) ->
  has_key (c_id c) snapshot = true.
Proof.
  intros Hok Hin. unfold has_key.
  destruct (dget (c_id c) snapshot) eqn:E; [reflexivity|].
  destruct (load_comments_raises snapshot participants db c Hin E)
    as [e He].
  rewrite He in Hok. discriminate Hok.
Qed.

(* ------------------------------------------------------------------ *)
(** ** Weight factor recalculator *)

Lemma Qltb_lt (a b : Q) : Qltb a b = true <-> a < b.
Proof.
  unfold Qltb. rewrite negb_true_iff.
  split; intro H.
  - apply Qnot_le_lt. intro Hle. apply Qle_bool_iff in Hle. congruence.
  - destruct (Qle_bool b a) eqn:E; [|reflexivity].
    apply Qle_bool_iff in E. exfalso. eapply Qlt_not_le; eassumption.
Qed.

Lemma Qltb_ge (a b : Q) : Qltb a b = false <-> b <= a.
Proof.
  unfold Qltb. rewrite negb_false_iff. apply Qle_bool_iff.
Qed.

Lemma dget_In {V : Type} (k : string) (v : V) (d : Dict V) :
  dget k d = Some v -> In v (values d).
Proof.
  induction d as [|[k' v'] d IH]; simpl; [discriminate|].
  destruct (String.eqb k k'); intro H.
  - left. congruence.
  - right. auto.
Qed.

Lemma dget_map {V : Type} (f : V -> V) (k : string) (d : Dict V) :
  dget k (map (fun kv => (fst kv, f (snd kv))) d)
  = option_map f (dget k d).
Proof.
  induction d as [|[k' v'] d IH]; simpl; [reflexivity|].
  destruct (String.eqb k k'); [reflexivity | exact IH].
Qed.

Lemma max_loop_bounds (ps : Dict Participant) (m : Q) :
  m <= fold_left max_step ps m
  /\ (forall p, In p (values ps) -> score p <= fold_left max_step ps m)
  /\ (fold_left max_step ps m = m
      \/ exists p, In p (values ps) /\ fold_left max_step ps m = score p).
Proof.
  revert m; induction ps as [|kp ps IH]; intro m; simpl.
  - split; [apply Qle_refl|]. split; [intros p []|]. left. reflexivity.
  - destruct (IH (max_step m kp)) as (Hm & Hall & Hatt).
    assert (Hstep : m <= max_step m kp /\ score (snd kp) <= max_step m kp).
    { unfold max_step. destruct (Qltb m (score (snd kp))) eqn:E.
      - apply Qltb_lt in E. split; [apply Qlt_le_weak, E | apply Qle_refl].
      - apply Qltb_ge in E. split; [apply Qle_refl | exact E]. }
    destruct Hstep as [H1 H2].
    split; [eapply Qle_trans; eassumption|].
    split.
    + intros p [<-|Hp]; [eapply Qle_trans; eassumption | apply Hall, Hp].
    + destruct Hatt as [Heq|(p & Hp & Heq)].
      * rewrite Heq. unfold max_step. destruct (Qltb m (score (snd kp))).
        -- right. exists (snd kp). split; [left; reflexivity | reflexivity].
        -- left. reflexivity.
      * right. exists p. split; [right; exact Hp | exact Heq].
Qed.

Lemma max_score_ge_one (ps : Dict Participant) : 1 <= max_score ps.
Proof. apply (max_loop_bounds ps 1). Qed.

Lemma max_score_upper (ps : Dict Participant) (p : Participant) :
  In p (values ps) -> score p <= max_score ps.
Proof. apply (max_loop_bounds ps 1). Qed.

Lemma max_score_attained (ps : Dict Participant) :
  max_score ps = 1
  \/ exists p, In p (values ps) /\ max_score ps = score p.
Proof. apply (max_loop_bounds ps 1). Qed.

Lemma floor_max_bounds (ps : Dict Participant) :
  1 <= floor_max ps
  /\ (forall p, In p (values ps) -> score p <= floor_max ps)
  /\ (floor_max ps == 1
      \/ exists p, In p (values ps) /\ floor_max ps == score p).
Proof.
  induction ps as [|kp ps (H1 & Hall & Hatt)]; simpl.
  - split; [apply Qle_refl|]. split; [intros p []|]. left. reflexivity.
  - split; [eapply Qle_trans; [exact H1 | apply Q.le_max_r]|].
    split.
    + intros p [<-|Hp]; [apply Q.le_max_l|].
      eapply Qle_trans; [apply Hall, Hp | apply Q.le_max_r].
    + destruct (Q.max_spec (score (snd kp)) (floor_max ps)) as [[_ Hmax]|[_ Hmax]].
      * destruct Hatt as [Heq|(p & Hp & Heq)].
        -- left. now rewrite Hmax.
        -- right. exists p. split; [right; exact Hp | now rewrite Hmax].
      * right. exists (snd kp). split; [left; reflexivity | exact Hmax].
Qed.

Lemma max_score_floor_max (ps : Dict Participant) :
  max_score ps == floor_max ps.
Proof.
  destruct (floor_max_bounds ps) as (F1 & Fall & Fatt).
  apply Qle_antisym.
  - destruct (max_score_attained ps) as [->|(p & Hp & ->)]; auto.
  - destruct Fatt as [->|(p & Hp & ->)];
      [apply max_score_ge_one | apply max_score_upper, Hp].
Qed.

Lemma recalculate_weight (m : Q) (p : Participant) :
  weight_factor (recalculate m p)
  = if Qltb (score p) 0 then 0 else score p / m * (9 # 10) + (1 # 10).
Proof. unfold recalculate. destruct (Qltb (score p) 0); reflexivity. Qed.

Lemma update_weight_factors_lookup (ps : Dict Participant) (k : string)
    (p : Participant) :
  dget k ps = Some p ->
  dget k (update_weight_factors ps) = Some (recalculate (max_score ps) p).
Proof.
  intro H. unfold update_weight_factors.
  rewrite (dget_map (recalculate (max_score ps))), H. reflexivity.
Qed.

Lemma ratio_bounds (s m : Q) : 1 <= m -> 0 <= s -> s <= m -> 0 <= s / m <= 1.
Proof.
  intros Hm Hs Hsm.
  assert (Hpos : 0 < m) by lra.
  split.
  - apply Qle_shift_div_l; [exact Hpos | lra].
  - apply Qle_shift_div_r; [exact Hpos | lra].
Qed.

(** C5: the loop's [max_score] is the maximum of 1.0 and all the scores; a
    participant with a negative score gets weight factor 0, any other gets
    [0.1 + 0.9 * (score / max_score)]; so every weight factor the
    recalculator writes is 0 or lies between 0.1 and 1.0. *)
Theorem update_weight_factors_formula (ps : Dict Participant) (k : string)
    (p : Participant) :
  dget k ps = Some p ->
  max_score ps == floor_max ps
  /\ exists p',
       dget k (update_weight_factors ps) = Some p'
       /\ (score p < 0 -> weight_factor p' == 0)
       /\ (0 <= score p ->
           weight_factor p' == (1 # 10) + (9 # 10) * (score p / floor_max ps))
       /\ (weight_factor p' == 0
           \/ (1 # 10) <= weight_factor p' <= 1).
Proof.
  intro Hk. split; [apply max_score_floor_max|].
  exists (recalculate (max_score ps) p).
  split; [apply update_weight_factors_lookup, Hk|].
  rewrite recalculate_weight.
  pose proof (max_score_ge_one ps) as Hone.
  pose proof (max_score_upper ps p (dget_In _ _ _ Hk)) as Hup.
  destruct (Qltb (score p) 0) eqn:E.
  - apply Qltb_lt in E. split; [reflexivity|].
    split; [intro; lra | left; reflexivity].
  - apply Qltb_ge in E. split; [intro; lra|].
    split.
    + intros _. rewrite <- (max_score_floor_max ps). ring.
    + right. destruct (ratio_bounds (score p) (max_score ps) Hone E Hup).
      set (x := score p / max_score ps) in *. lra.
Qed.

Lemma update_weight_factors_formula_witness :
  max_score WeightExample.trio == floor_max WeightExample.trio
  /\ exists p',
       dget "bob" (update_weight_factors WeightExample.trio) = Some p'
       /\ (score (snd (WeightExample.mk "bob" (8 # 10))) < 0 ->
           weight_factor p' == 0)
       /\ (0 <= score (snd (WeightExample.mk "bob" (8 # 10))) ->
           weight_factor p'
           == (1 # 10)
              + (9 # 10) * (score (snd (WeightExample.mk "bob" (8 # 10)))
                            / floor_max WeightExample.trio))
       /\ (weight_factor p' == 0
           \/ (1 # 10) <= weight_factor p' <= 1).
Proof.
  apply (update_weight_factors_formula WeightExample.trio "bob").
  reflexivity.
Defined.


(** C3 (as amended): when some participant's score is at least 1.0, the
    participants that get weight factor 1.0 are exactly those that hold the
    maximum score. *)
Theorem weight_one_iff_top (ps : Dict Participant) (k : string)
    (p : Participant) :
  dget k ps = Some p ->
  (exists q, In q (values ps) /\ 1 <= score q) ->
  exists p',
    dget k (update_weight_factors ps) = Some p'
    /\ (weight_factor p' == 1 <-> is_top ps p).
Proof.
  intros Hk (q0 & Hq0 & Hq0one).
  exists (recalculate (max_score ps) p).
  split; [apply update_weight_factors_lookup, Hk|].
  rewrite recalculate_weight.
  pose proof (max_score_ge_one ps) as Hone.
  pose proof (max_score_upper ps p (dget_In _ _ _ Hk)) as Hup.
  assert (Hnz : ~ max_score ps == 0) by lra.
  split.
  - intros Hw q Hq.
    destruct (Qltb (score p) 0) eqn:E; [lra|].
    assert (Hr : score p / max_score ps == 1) by lra.
    assert (Hs : score p == max_score ps).
    { rewrite <- (Qmult_div_r (score p) (max_score ps) Hnz).
      unfold Qdiv in Hr |- *. rewrite Hr. ring. }
    rewrite Hs. apply max_score_upper, Hq.
  - intro Htop.
    assert (Hs : score p == max_score ps).
    { apply Qle_antisym; [exact Hup|].
      destruct (max_score_attained ps) as [->|(q & Hq & ->)].
      - eapply Qle_trans; [exact Hq0one | apply Htop, Hq0].
      - apply Htop, Hq. }
    destruct (Qltb (score p) 0) eqn:E; [apply Qltb_lt in E; lra|].
    rewrite Hs. unfold Qdiv. rewrite (Qmult_inv_r _ Hnz). ring.
Qed.

Lemma weight_one_iff_top_witness :
  exists p',
    dget "charlie" (update_weight_factors WeightExample.trio) = Some p'
    /\ (weight_factor p' == 1
        <-> is_top WeightExample.trio (snd (WeightExample.mk "charlie" 10))).
Proof.
  apply (weight_one_iff_top WeightExample.trio "charlie").
  - reflexivity.
  - exists (snd (WeightExample.mk "charlie" 10)).
    split; [simpl; right; right; left; reflexivity | vm_compute; discriminate].
Defined.

(** C3 (as stated, refuted): the maximum score 0.5 is positive, yet its
    holder gets weight factor 0.55. *)
Lemma top_below_one_not_full_weight :
  exists p p',
    dget "alice" WeightExample.low = Some p
    /\ is_top WeightExample.low p
    /\ 0 < score p
    /\ dget "alice" (update_weight_factors WeightExample.low) = Some p'
    /\ weight_factor p' == 55 # 100
    /\ ~ weight_factor p' == 1.
Proof.
  do 2 eexists. split; [reflexivity|]. split.
  - intros q [<-|[<-|[]]]; vm_compute; discriminate.
  - split; [reflexivity|]. split; [reflexivity|]. split.
    + reflexivity.
    + intro H. vm_compute in H. discriminate H.
Qed.

(* ------------------------------------------------------------------ *)
(** ** Rank assigner *)

Lemma before_true (p q : Participant) :
  before p q = true -> score q <= score p.
Proof.
  unfold before. intro H. apply orb_true_iff in H. destruct H as [H|H].
  - apply Qltb_lt in H. apply Qlt_le_weak, H.
  - apply andb_true_iff in H. destruct H as [H _].
    apply Qeq_bool_iff in H. rewrite H. apply Qle_refl.
Qed.

Lemma before_false (p q : Participant) :
  before p q = false -> score p <= score q.
Proof.
  unfold before. intro H. apply orb_false_iff in H. destruct H as [H _].
  apply Qltb_ge in H. exact H.
Qed.

Lemma insert_sorted (p : Participant) (l : list Participant) :
  Sorted by_score_desc l -> Sorted by_score_desc (insert p l).
Proof.
  induction l as [|q l IH]; intro Hs; simpl.
  - repeat constructor.
  - destruct (before p q) eqn:E.
    + constructor; [exact Hs|]. constructor. apply before_true, E.
    + inversion Hs as [|? ? Hs' Hhd]; subst.
      constructor; [apply IH, Hs'|].
      destruct l as [|q' l]; simpl.
      * constructor. apply before_false, E.
      * destruct (before p q'); constructor.
        -- apply before_false, E.
        -- inversion Hhd; subst. assumption.
Qed.

Lemma order_by_sorted (rows : list Participant) :
  Sorted by_score_desc (order_by rows).
Proof.
  unfold order_by. induction rows as [|p rows IH]; simpl.
  - constructor.
  - apply insert_sorted, IH.
Qed.

Lemma insert_perm (p : Participant) (l : list Participant) :
  Permutation (p :: l) (insert p l).
Proof.
  induction l as [|q l IH]; simpl; [reflexivity|].
  destruct (before p q); [reflexivity|].
  rewrite perm_swap. constructor. exact IH.
Qed.

Lemma order_by_perm (rows : list Participant) :
  Permutation rows (order_by rows).
Proof.
  unfold order_by. induction rows as [|p rows IH]; simpl; [constructor|].
  rewrite <- insert_perm. constructor. exact IH.
Qed.

Lemma rank_loop_from (l : list Participant) (st : Ranking) :
  ranked (fold_left rank_step l st)
  = (ranked st ++ rank_from (cur_rank st) (last_score st) l)%list.
Proof.
  revert st; induction l as [|p l IH]; intro st; simpl.
  - now rewrite app_nil_r.
  - rewrite IH. unfold rank_step. cbn [ranked cur_rank last_score].
    rewrite <- app_assoc. reflexivity.
Qed.

Lemma assign_ranks_from (l : list Participant) :
  assign_ranks l = rank_from 0 None l.
Proof. unfold assign_ranks. now rewrite rank_loop_from. Qed.

Lemma stamp_rank (r : Z) (p : Participant) : rank (stamp r p) = Some r.
Proof. reflexivity. Qed.

Lemma stamp_score (r : Z) (p : Participant) : score (stamp r p) = score p.
Proof. unfold stamp. destruct (truthy_int (rank p)); reflexivity. Qed.

Lemma stamp_login (r : Z) (p : Participant) : login (stamp r p) = login p.
Proof. unfold stamp. destruct (truthy_int (rank p)); reflexivity. Qed.

Lemma rank_from_scores (l : list Participant) (cur : Z) (last : option Q) :
  map score (rank_from cur last l) = map score l
  /\ map login (rank_from cur last l) = map login l.
Proof.
  revert cur last; induction l as [|p l IH]; intros cur last;
    cbn [rank_from map].
  - split; reflexivity.
  - rewrite stamp_score, stamp_login.
    destruct (IH (next_rank cur last p) (next_last cur last p)) as [-> ->].
    split; reflexivity.
Qed.

(** After a turn the counter is positive and [last_score] is the score of
    the participant just ranked. *)
Lemma rank_step_invariant (cur : Z) (last : option Q) (p : Participant) :
  (0 <= cur)%Z ->
  (1 <= next_rank cur last p)%Z
  /\ exists s, next_last cur last p = Some s /\ s == score p.
Proof.
  intro Hcur. unfold next_rank, next_last.
  destruct (cur =? 0)%Z eqn:E0; simpl.
  - split; [lia|]. exists (score p). split; reflexivity.
  - apply Z.eqb_neq in E0.
    destruct last as [s|]; simpl.
    + destruct (Qeq_bool s (score p)) eqn:E; simpl.
      * split; [lia|]. exists s. split; [reflexivity|].
        apply Qeq_bool_iff, E.
      * split; [lia|]. exists (score p). split; reflexivity.
    + split; [lia|]. exists (score p). split; reflexivity.
Qed.

Lemma rank_from_adjacent (l : list Participant) :
  Sorted by_score_desc l ->
  forall cur last i pa pb,
    (0 <= cur)%Z ->
    nth_error (rank_from cur last l) i = Some pa ->
    nth_error (rank_from cur last l) (S i) = Some pb ->
    exists ra rb,
      rank pa = Some ra /\ rank pb = Some rb
      /\ (score pa == score pb <-> ra = rb)
      /\ (score pb < score pa <-> rb = (ra + 1)%Z).
Proof.
  induction l as [|p l IH]; intros Hs cur last i pa pb Hcur Ha Hb.
  - destruct i; discriminate.
  - inversion Hs as [|? ? Hs' Hhd]; subst.
    destruct (rank_step_invariant cur last p Hcur) as (Hr & s & Hlast & Hseq).
    cbn [rank_from nth_error] in Ha, Hb. destruct i as [|i].
    + injection Ha as <-.
      destruct l as [|q l]; [discriminate|].
      cbn [rank_from nth_error] in Hb. injection Hb as <-.
      exists (next_rank cur last p).
      exists (next_rank (next_rank cur last p) (next_last cur last p) q).
      rewrite !stamp_score. split; [reflexivity|]. split; [reflexivity|].
      inversion Hhd as [|? ? Hle]; subst. unfold by_score_desc in Hle.
      rewrite Hlast. unfold next_rank at 2 4.
      assert (E0 : (next_rank cur last p =? 0)%Z = false)
        by (apply Z.eqb_neq; lia).
      rewrite E0. simpl.
      destruct (Qeq_bool s (score q)) eqn:E; simpl.
      * apply Qeq_bool_iff in E.
        assert (Heq : score p == score q) by (rewrite <- Hseq; exact E).
        split; split; intro H; try reflexivity; try exact Heq; exfalso.
        -- rewrite Heq in H. apply (Qlt_irrefl _ H).
        -- lia.
      * apply Qeq_bool_neq in E.
        assert (Hne : ~ score p == score q)
          by (intro H; apply E; rewrite Hseq; exact H).
        split; split; intro H; try reflexivity; try lia.
        -- contradiction.
        -- apply Qle_lteq in Hle. destruct Hle as [Hlt|Heq]; [exact Hlt|].
           exfalso. apply Hne. symmetry. exact Heq.
    + apply (IH Hs' (next_rank cur last p) (next_last cur last p) i pa pb);
        [lia | exact Ha | exact Hb].
Qed.

Lemma dense_ranks_of_sorted (ordered : list Participant) :
  Sorted by_score_desc ordered ->
  map score (assign_ranks ordered) = map score ordered
  /\ map login (assign_ranks ordered) = map login ordered
  /\ (forall p, hd_error (assign_ranks ordered) = Some p -> rank p = Some 1%Z)
  /\ (forall i pa pb,
        nth_error (assign_ranks ordered) i = Some pa ->
        nth_error (assign_ranks ordered) (S i) = Some pb ->
        exists ra rb,
          rank pa = Some ra /\ rank pb = Some rb
          /\ (score pa == score pb <-> ra = rb)
          /\ (score pb < score pa <-> rb = (ra + 1)%Z)).
Proof.
  intro Hs. rewrite assign_ranks_from.
  destruct (rank_from_scores ordered 0 None) as [Hsc Hlg].
  split; [exact Hsc|]. split; [exact Hlg|]. split.
  - intros p Hp. destruct ordered as [|q l]; [discriminate|].
    cbn [rank_from hd_error] in Hp. injection Hp as <-. reflexivity.
  - intros i pa pb Ha Hb.
    apply (rank_from_adjacent ordered Hs 0%Z None i pa pb);
      [lia | exact Ha | exact Hb].
Qed.

(** C6: over participants listed by descending score (whatever the order
    within a tie, so whatever [pos_in] says), the loop keeps the order and
    the scores, gives the first participant rank 1, and gives any two
    neighbours equal ranks exactly when their scores are equal, and the
    second the first's rank plus one exactly when its score is strictly
    lower. *)
Theorem dense_ranking (ordered : list Participant) :
  Sorted by_score_desc ordered ->
  let out := assign_ranks ordered in
  map score out = map score ordered
  /\ map login out = map login ordered
  /\ (forall p, hd_error out = Some p -> rank p = Some 1%Z)
  /\ (forall i pa pb,
        nth_error out i = Some pa ->
        nth_error out (S i) = Some pb ->
        exists ra rb,
          rank pa = Some ra /\ rank pb = Some rb
          /\ (score pa == score pb <-> ra = rb)
          /\ (score pb < score pa <-> rb = (ra + 1)%Z)).
Proof. intro Hs. cbv zeta. apply dense_ranks_of_sorted, Hs. Qed.

Lemma dense_ranking_witness :
  let out := assign_ranks RankExample.ordered in
  map score out = map score RankExample.ordered
  /\ map login out = map login RankExample.ordered
  /\ (forall p, hd_error out = Some p -> rank p = Some 1%Z)
  /\ (forall i pa pb,
        nth_error out i = Some pa ->
        nth_error out (S i) = Some pb ->
        exists ra rb,
          rank pa = Some ra /\ rank pb = Some rb
          /\ (score pa == score pb <-> ra = rb)
          /\ (score pb < score pa <-> rb = (ra + 1)%Z)).
Proof.
  apply (dense_ranking RankExample.ordered).
  repeat constructor; vm_compute; discriminate.
Defined.

(** The rank assigner's own input, the rows as [order_by] returns them, is
    such a list, so its ranks are dense. *)
Corollary update_rankings_dense (rows : list Participant) :
  Sorted by_score_desc (order_by rows)
  /\ Permutation rows (order_by rows)
  /\ forall i pa pb,
       nth_error (assign_ranks (order_by rows)) i = Some pa ->
       nth_error (assign_ranks (order_by rows)) (S i) = Some pb ->
       exists ra rb,
         rank pa = Some ra /\ rank pb = Some rb
         /\ (score pa == score pb <-> ra = rb)
         /\ (score pb < score pa <-> rb = (ra + 1)%Z).
Proof.
  split; [apply order_by_sorted|]. split; [apply order_by_perm|].
  apply (dense_ranks_of_sorted (order_by rows) (order_by_sorted rows)).
Qed.

Example ranks_of_example :
  order_by RankExample.rows = RankExample.ordered
  /\ map (fun p => (login p, rank p)) (assign_ranks RankExample.ordered)
     = [("alice", Some 1%Z); ("carol", Some 2%Z); ("bob", Some 2%Z);
        ("dave", Some 3%Z)]%list.
Proof. split; reflexivity. Qed.

(* ------------------------------------------------------------------ *)
(** ** The documented examples *)



Lemma update_score_all_old_example :
  exists participant',
    update_score_one CheckpointExample.givers
      (firstn 1 CheckpointExample.received) (firstn 1 CheckpointExample.received)
      CheckpointExample.dave
    = Ok participant'
    /\ score participant' == score CheckpointExample.dave.
Proof.
  apply (update_score_all_old CheckpointExample.givers CheckpointExample.dave);
    reflexivity.
Defined.

Lemma init_participants_guard_example :
  has_key "" (init_participants (raw_comments (init Feeds.ghost_reactor))) = true.
Proof.
  apply (init_participants_guard
           (raw_comments (init Feeds.ghost_reactor)) "c1"
           (mkRawComment "c1" 5 None "body" "diff" Feeds.alice
                         [Feeds.thumb_by_ghost])
           Feeds.thumb_by_ghost).
  - left. reflexivity.
  - left. reflexivity.
  - reflexivity.
Defined.

Lemma load_comments_ok_covers_example :
  has_key "c1" StaleComment.snapshot = true.
Proof.
  apply (load_comments_ok_covers StaleComment.snapshot
           (fst (load_participants_to_memory Feeds.dflt
                   (raw_participants (init Feeds.reviewed)) empty_db))
           (mkDatabase [] [("c1", new_comment "c1")] [])
           (new_comment "c1")).
  - reflexivity.
  - left. reflexivity.
Defined.
